(** * websocketClient.ts: endpoint resolution and socket event wiring

    A shallow embedding of [src/utils/websocketClient.ts].  The module has
    two halves:

    - pure string code that picks the WebSocket URL from the page location
      and the process environment ([getServerBaseUrl], [toWebSocketBaseUrl],
      [isLoopbackHost], [getWebSocketUrl]);
    - event wiring around one platform [WebSocket] object
      ([createChatWebSocket], [closeWebSocket]).

    JavaScript strings are modelled by [string]; every literal the code
    compares against or splices in is ASCII, so equality and prefix tests
    agree between the two representations. *)

From Stdlib Require Import String Ascii List Bool Arith Lia.
Import ListNotations.
Local Open Scope string_scope.

(** ** The globals the resolver reads *)

(** [window.location]: only the three fields the code touches. *)
Record Location := mkLocation {
  protocol : string;   (* "https:" , "http:" , ... with the colon *)
  host     : string;   (* hostname, and ":port" when the port is explicit *)
  hostname : string
}.

Record Window := mkWindow { location : Location }.

(** [process.env]: the single key read, absent or a string. *)
Record ProcessEnv := mkProcessEnv { SERVER_BASE_URL : option string }.

Record Process := mkProcess { env : option ProcessEnv }.

(** [globalThis]: [process] and [window] may each be undefined. *)
Record GlobalThis := mkGlobalThis {
  process : option Process;
  window  : option Window
}.

(** ** String helpers standing for the JavaScript operators used *)

(** [strip_prefix p s] is the rest of [s] after a leading [p], if any. *)
Fixpoint strip_prefix (p s : string) : option string :=
  match p with
  | EmptyString => Some s
  | String a p' =>
      match s with
      | EmptyString => None
      | String b s' => if Ascii.eqb a b then strip_prefix p' s' else None
      end
  end.

(** [s.replace(/^lit/, rep)] for a literal [lit] and a replacement without
    [$] patterns: the regex is not global and anchored, so at most the
    leading occurrence is replaced. *)
Definition replace_leading (lit rep s : string) : string :=
  match strip_prefix lit s with
  | Some rest => rep ++ rest
  | None => s
  end.

(** [a || b] on an optional string: [undefined] and [''] are falsy. *)
Definition or_default (a : option string) (b : string) : string :=
  match a with
  | None => b
  | Some EmptyString => b
  | Some v => v
  end.

(** ** The resolver *)

Definition DEFAULT_SERVER_BASE_URL : string := "http://localhost:8001".

(** [globalThis.process?.env], then [env?.SERVER_BASE_URL || DEFAULT]. *)
Definition getServerBaseUrl (g : GlobalThis) : string :=
  let env :=
    match process g with
    | None => None
    | Some p => env p
    end in
  or_default
    (match env with
     | None => None
     | Some e => SERVER_BASE_URL e
     end)
    DEFAULT_SERVER_BASE_URL.

Definition toWebSocketBaseUrl (baseUrl : string) : string :=
  replace_leading "http:" "ws:" (replace_leading "https:" "wss:" baseUrl).

Definition isLoopbackHost (hostname : string) : bool :=
  (hostname =? "localhost") || (hostname =? "127.0.0.1") || (hostname =? "::1").

Definition getWebSocketUrl (g : GlobalThis) : string :=
  match window g with
  | Some w =>
      let protocol :=
        if protocol (location w) =? "https:" then "wss:" else "ws:" in
      let host := host (location w) in
      if isLoopbackHost (hostname (location w)) then
        let wsBaseUrl := toWebSocketBaseUrl (getServerBaseUrl g) in
        wsBaseUrl ++ "/ws/chat"
      else
        protocol ++ "//" ++ host ++ "/ws/chat"
  | None =>
      let wsBaseUrl := toWebSocketBaseUrl (getServerBaseUrl g) in
      wsBaseUrl ++ "/ws/chat"
  end.

(** Contexts used in the statements below. *)
Definition browser (p : option Process) (l : Location) : GlobalThis :=
  mkGlobalThis p (Some (mkWindow l)).

Definition server_side (p : option Process) : GlobalThis :=
  mkGlobalThis p None.

Definition with_base_url (v : string) : option Process :=
  Some (mkProcess (Some (mkProcessEnv (Some v)))).

(** [SERVER_BASE_URL] is absent when [process], [process.env] or the key
    itself is undefined. *)
Definition base_url_absent (p : option Process) : bool :=
  match p with
  | None => true
  | Some (mkProcess None) => true
  | Some (mkProcess (Some (mkProcessEnv None))) => true
  | Some (mkProcess (Some (mkProcessEnv (Some _)))) => false
  end.

(** ** Request shape *)

Inductive Role := user | assistant | system.

Record ChatMessage := mkChatMessage {
  role    : Role;
  content : string
}.

Record ChatCompletionRequest := mkChatCompletionRequest {
  repo_url       : string;
  messages       : list ChatMessage;
  filePath       : option string;
  token          : option string;
  type           : option string;
  provider       : option string;
  model          : option string;
  language       : option string;
  excluded_dirs  : option string;
  excluded_files : option string
}.

(** ** The platform socket

    The [WebSocket] object, [console] and the event loop belong to the host,
    not to this module.  They are modelled after the WHATWG WebSocket
    interface, only as far as the wiring code exercises them. *)

Inductive ReadyState := CONNECTING | OPEN | CLOSING | CLOSED.

Definition ReadyState_eqb (a b : ReadyState) : bool :=
  match a, b with
  | CONNECTING, CONNECTING | OPEN, OPEN | CLOSING, CLOSING | CLOSED, CLOSED => true
  | _, _ => false
  end.

(** [event.data] of a message event: text for a text frame. *)
Inductive Payload :=
| Text (s : string)
| Binary (bytes : list Byte.byte).

Record MessageEvent := mkMessageEvent { data : Payload }.

(** The DOM [Event] handed to [onerror]; opaque to the wiring code. *)
Record Event := mkEvent { event_type : string }.

Inductive Exn := InvalidStateError.

(** What can be observed of one connection, in program order. *)
Inductive Action :=
| Connect (url : string)               (* new WebSocket(url) *)
| Log (line : string)                  (* console.log *)
| LogError (line : string) (e : Event) (* console.error *)
| Sent (frame : string)                (* a text frame handed to the transport *)
| CloseStarted                         (* close handshake initiated *)
| Uncaught (e : Exn)                   (* a handler threw; reported by the event loop *)
| CalledOnMessage (p : Payload)        (* the caller's callbacks, by invocation *)
| CalledOnError (e : Event)
| CalledOnClose.

(** The mutable part of a socket, with the actions done on it so far. *)
Record Conn := mkConn {
  url        : string;
  readyState : ReadyState;
  trace      : list Action
}.

Inductive Outcome (A : Type) :=
| Returned (a : A)
| Thrown (e : Exn).
Arguments Returned {A} a.
Arguments Thrown {A} e.

(** Statements that run against a socket: state passing with exceptions. *)
Definition M (A : Type) : Type := Conn -> Outcome A * Conn.

Definition ret {A} (a : A) : M A := fun c => (Returned a, c).

Definition bind {A B} (m : M A) (k : A -> M B) : M B :=
  fun c =>
    match m c with
    | (Returned a, c') => k a c'
    | (Thrown e, c') => (Thrown e, c')
    end.

Notation "m ;; k" := (bind m (fun _ => k))
  (at level 61, right associativity).

Definition emit (a : Action) : M unit :=
  fun c => (Returned tt, mkConn (url c) (readyState c) (trace c ++ [a])).

Definition set_readyState (r : ReadyState) (c : Conn) : Conn :=
  mkConn (url c) r (trace c).

Definition console_log (line : string) : M unit := emit (Log line).

Definition console_error (line : string) (e : Event) : M unit :=
  emit (LogError line e).

(** [ws.send(data)]: throws while connecting, transmits when open, and is
    silently dropped once the socket is closing or closed. *)
Definition ws_send (frame : string) : M unit :=
  fun c =>
    match readyState c with
    | CONNECTING => (Thrown InvalidStateError, c)
    | OPEN => emit (Sent frame) c
    | CLOSING | CLOSED => (Returned tt, c)
    end.

(** [ws.close()] without arguments: does nothing once closing or closed,
    otherwise moves to CLOSING and starts the handshake. *)
Definition ws_close : M unit :=
  fun c =>
    match readyState c with
    | CLOSING | CLOSED => (Returned tt, c)
    | CONNECTING | OPEN => emit CloseStarted (set_readyState CLOSING c)
    end.

(** The socket object: its state and the four handler slots, [null] until
    assigned. *)
Record WebSocket := mkWebSocket {
  conn      : Conn;
  onopen    : option (M unit);
  onmessage : option (MessageEvent -> M unit);
  onerror   : option (Event -> M unit);
  onclose   : option (M unit)
}.

(** [new WebSocket(u)], for a [u] the constructor accepts.  The host
    rejects some strings with a SyntaxError and keeps its own, re-serialized
    form of the URL; neither is modelled.  [url] is the string the
    constructor was called with, and what is proved of a socket is proved
    of a socket the constructor returned. *)
Definition new_WebSocket (u : string) : WebSocket :=
  mkWebSocket (mkConn u CONNECTING [Connect u]) None None None None.

Definition set_conn (c : Conn) (ws : WebSocket) : WebSocket :=
  mkWebSocket c (onopen ws) (onmessage ws) (onerror ws) (onclose ws).

Definition set_onopen (h : M unit) (ws : WebSocket) : WebSocket :=
  mkWebSocket (conn ws) (Some h) (onmessage ws) (onerror ws) (onclose ws).

Definition set_onmessage (h : MessageEvent -> M unit) (ws : WebSocket) : WebSocket :=
  mkWebSocket (conn ws) (onopen ws) (Some h) (onerror ws) (onclose ws).

Definition set_onerror (h : Event -> M unit) (ws : WebSocket) : WebSocket :=
  mkWebSocket (conn ws) (onopen ws) (onmessage ws) (Some h) (onclose ws).

Definition set_onclose (h : M unit) (ws : WebSocket) : WebSocket :=
  mkWebSocket (conn ws) (onopen ws) (onmessage ws) (onerror ws) (Some h).

(** ** The wiring code *)

Section Wiring.

(** [JSON.stringify] on request objects, a host primitive. *)
Variable JSON_stringify : ChatCompletionRequest -> string.

Definition createChatWebSocket
    (g : GlobalThis)
    (request : ChatCompletionRequest)
    (onMessage : Payload -> M unit)
    (onError : Event -> M unit)
    (onClose : M unit) : WebSocket :=
  let ws := new_WebSocket (getWebSocketUrl g) in
  let ws :=
    set_onopen
      (console_log "WebSocket connection established" ;;
       ws_send (JSON_stringify request)) ws in
  let ws :=
    set_onmessage (fun event => onMessage (data event)) ws in
  let ws :=
    set_onerror
      (fun error =>
         console_error "WebSocket error:" error ;;
         onError error) ws in
  let ws :=
    set_onclose
      (console_log "WebSocket connection closed" ;;
       onClose) ws in
  ws.

End Wiring.

(** [ws && ws.readyState === WebSocket.OPEN]: a [null] handle is falsy and
    the state is not read. *)
Definition closeWebSocket (ws : option WebSocket) : Outcome unit * option WebSocket :=
  match ws with
  | Some s =>
      if ReadyState_eqb (readyState (conn s)) OPEN then
        let '(r, c) := ws_close (conn s) in
        (r, Some (set_conn c s))
      else (Returned tt, Some s)
  | None => (Returned tt, None)
  end.

(** ** The event loop

    The host runs one task at a time.  A handler that throws is reported and
    does not stop later tasks. *)

Definition run_handler (h : option (M unit)) (ws : WebSocket) : WebSocket :=
  match h with
  | None => ws
  | Some m =>
      match m (conn ws) with
      | (Returned _, c) => set_conn c ws
      | (Thrown e, c) => set_conn (snd (emit (Uncaught e) c)) ws
      end
  end.

(** One step of a connection's life: a task of the host, or the caller
    asking for the socket to be closed.  [Closed] is the host's single
    closing task: the state becomes CLOSED, then [error] fires if the
    connection failed, then [close] fires. *)
Inductive Step :=
| Opens
| Receives (m : MessageEvent)
| Closed (failure : option Event)
| CallerCloses.

(** [None] when the host cannot produce that task in the current state. *)
Definition step (st : Step) (ws : WebSocket) : option WebSocket :=
  match st with
  | Opens =>
      match readyState (conn ws) with
      | CONNECTING =>
          let ws := set_conn (set_readyState OPEN (conn ws)) ws in
          Some (run_handler (onopen ws) ws)
      | _ => None
      end
  | Receives m =>
      match readyState (conn ws) with
      | OPEN => Some (run_handler (option_map (fun h => h m) (onmessage ws)) ws)
      | _ => None
      end
  | Closed failure =>
      match readyState (conn ws) with
      | CLOSED => None
      | _ =>
          let ws := set_conn (set_readyState CLOSED (conn ws)) ws in
          let ws :=
            match failure with
            | Some e => run_handler (option_map (fun h => h e) (onerror ws)) ws
            | None => ws
            end in
          Some (run_handler (onclose ws) ws)
      end
  | CallerCloses =>
      match closeWebSocket (Some ws) with
      | (_, Some ws') => Some ws'
      | (_, None) => None
      end
  end.

Fixpoint run (sts : list Step) (ws : WebSocket) : option WebSocket :=
  match sts with
  | [] => Some ws
  | st :: rest =>
      match step st ws with
      | Some ws' => run rest ws'
      | None => None
      end
  end.

(** ** Observers over traces and runs *)

(** The caller's callbacks as probes: each invocation is recorded with its
    argument, nothing else happens. *)
Definition probe_onMessage (p : Payload) : M unit := emit (CalledOnMessage p).
Definition probe_onError (e : Event) : M unit := emit (CalledOnError e).
Definition probe_onClose : M unit := emit CalledOnClose.

Definition probed (JSON_stringify : ChatCompletionRequest -> string)
    (g : GlobalThis) (request : ChatCompletionRequest) : WebSocket :=
  createChatWebSocket JSON_stringify g request
    probe_onMessage probe_onError probe_onClose.

Fixpoint sent_frames (t : list Action) : list string :=
  match t with
  | [] => []
  | Sent f :: t' => f :: sent_frames t'
  | _ :: t' => sent_frames t'
  end.

Fixpoint onMessage_calls (t : list Action) : list Payload :=
  match t with
  | [] => []
  | CalledOnMessage p :: t' => p :: onMessage_calls t'
  | _ :: t' => onMessage_calls t'
  end.

Fixpoint close_handshakes (t : list Action) : nat :=
  match t with
  | [] => 0
  | CloseStarted :: t' => S (close_handshakes t')
  | _ :: t' => close_handshakes t'
  end.

Fixpoint received (sts : list Step) : list Payload :=
  match sts with
  | [] => []
  | Receives m :: rest => data m :: received rest
  | _ :: rest => received rest
  end.

Definition is_Opens (st : Step) : bool :=
  match st with Opens => true | _ => false end.

Definition text_frame (s : string) : Step := Receives (mkMessageEvent (Text s)).

(** What one step adds to the trace of a socket wired by
    [createChatWebSocket] with the probes, from ready state [rs]; [frame]
    is the serialized request. *)
Definition step_actions (frame : string) (st : Step) (rs : ReadyState) : list Action :=
  match st with
  | Opens => [Log "WebSocket connection established"; Sent frame]
  | Receives m => [CalledOnMessage (data m)]
  | Closed (Some e) =>
      [LogError "WebSocket error:" e; CalledOnError e;
       Log "WebSocket connection closed"; CalledOnClose]
  | Closed None => [Log "WebSocket connection closed"; CalledOnClose]
  | CallerCloses =>
      match rs with
      | OPEN => [CloseStarted]
      | _ => []
      end
  end.

(** The ready state after a step, [None] when the step cannot happen. *)
Definition state_after (st : Step) (rs : ReadyState) : option ReadyState :=
  match st, rs with
  | Opens, CONNECTING => Some OPEN
  | Opens, _ => None
  | Receives _, OPEN => Some OPEN
  | Receives _, _ => None
  | Closed _, CLOSED => None
  | Closed _, _ => Some CLOSED
  | CallerCloses, OPEN => Some CLOSING
  | CallerCloses, _ => Some rs
  end.

Fixpoint onError_calls (t : list Action) : list Event :=
  match t with
  | [] => []
  | CalledOnError e :: t' => e :: onError_calls t'
  | _ :: t' => onError_calls t'
  end.

Fixpoint onClose_calls (t : list Action) : nat :=
  match t with
  | [] => 0
  | CalledOnClose :: t' => S (onClose_calls t')
  | _ :: t' => onClose_calls t'
  end.

Fixpoint connects (t : list Action) : list string :=
  match t with
  | [] => []
  | Connect u :: t' => u :: connects t'
  | _ :: t' => connects t'
  end.

Fixpoint uncaught (t : list Action) : list Exn :=
  match t with
  | [] => []
  | Uncaught e :: t' => e :: uncaught t'
  | _ :: t' => uncaught t'
  end.

Fixpoint failures (sts : list Step) : list Event :=
  match sts with
  | [] => []
  | Closed (Some e) :: rest => e :: failures rest
  | _ :: rest => failures rest
  end.

Definition is_Closed (st : Step) : bool :=
  match st with Closed _ => true | _ => false end.

(** A whole run in closed form: the final ready state and the actions
    added, [None] when some step cannot happen. *)
Fixpoint run_trace (frame : string) (sts : list Step) (rs : ReadyState)
  : option (ReadyState * list Action) :=
  match sts with
  | [] => Some (rs, [])
  | st :: rest =>
      match state_after st rs with
      | None => None
      | Some rs1 =>
          match run_trace frame rest rs1 with
          | None => None
          | Some (rs2, d) => Some (rs2, (step_actions frame st rs ++ d)%list)
          end
      end
  end.

(** A caller's callback that returns normally from every state of the
    socket and reports no exception of its own. *)
Definition returns_quietly (m : M unit) : Prop :=
  forall c, exists c',
    m c = (Returned tt, c') /\ uncaught (trace c') = uncaught (trace c).

(** ** Sanity runs *)

Example resolve_prod :
  getWebSocketUrl
    (browser None (mkLocation "https:" "wiki.example.com:8443" "wiki.example.com"))
  = "wss://wiki.example.com:8443/ws/chat".
Proof. reflexivity. Qed.

Example resolve_dev :
  getWebSocketUrl
    (browser None (mkLocation "http:" "localhost:3000" "localhost"))
  = "ws://localhost:8001/ws/chat".
Proof. reflexivity. Qed.

Example resolve_ssr_https :
  getWebSocketUrl (server_side (with_base_url "https://api.example.com"))
  = "wss://api.example.com/ws/chat".
Proof. reflexivity. Qed.

(** ** Facts about the string helpers *)

Lemma strip_prefix_app (p r : string) : strip_prefix p (p ++ r) = Some r.
Proof.
  induction p as [|a p IH]; simpl.
  - reflexivity.
  - rewrite Ascii.eqb_refl. exact IH.
Qed.

Lemma strip_prefix_Some (p : string) :
  forall s r, strip_prefix p s = Some r -> s = p ++ r.
Proof.
  induction p as [|a p IH]; simpl; intros s r H.
  - congruence.
  - destruct s as [|b s]; [discriminate|].
    destruct (Ascii.eqb a b) eqn:E; [|discriminate].
    apply Ascii.eqb_eq in E. subst b.
    f_equal. apply IH. exact H.
Qed.

Lemma strip_prefix_None (p : string) :
  forall s, prefix p s = false -> strip_prefix p s = None.
Proof.
  induction p as [|a p IH]; simpl; intros s H.
  - destruct s; discriminate.
  - destruct s as [|b s]; [reflexivity|]. simpl in H.
    destruct (ascii_dec a b) as [->|N].
    + rewrite Ascii.eqb_refl. apply IH. exact H.
    + apply Ascii.eqb_neq in N. rewrite N. reflexivity.
Qed.

Lemma replace_leading_hit (lit rep r : string) :
  replace_leading lit rep (lit ++ r) = rep ++ r.
Proof. unfold replace_leading. rewrite strip_prefix_app. reflexivity. Qed.

Lemma replace_leading_miss (lit rep s : string) :
  prefix lit s = false -> replace_leading lit rep s = s.
Proof.
  intros H. unfold replace_leading. rewrite (strip_prefix_None _ _ H). reflexivity.
Qed.

Lemma toWebSocketBaseUrl_https (r : string) :
  toWebSocketBaseUrl ("https:" ++ r) = "wss:" ++ r.
Proof.
  unfold toWebSocketBaseUrl. rewrite replace_leading_hit.
  apply replace_leading_miss. reflexivity.
Qed.

Lemma toWebSocketBaseUrl_http (r : string) :
  toWebSocketBaseUrl ("http:" ++ r) = "ws:" ++ r.
Proof.
  unfold toWebSocketBaseUrl.
  rewrite (replace_leading_miss "https:"); [|reflexivity].
  apply replace_leading_hit.
Qed.

Lemma toWebSocketBaseUrl_other (s : string) :
  prefix "https:" s = false -> prefix "http:" s = false ->
  toWebSocketBaseUrl s = s.
Proof.
  intros H1 H2. unfold toWebSocketBaseUrl.
  rewrite (replace_leading_miss "https:" _ _ H1).
  apply replace_leading_miss. exact H2.
Qed.

Lemma isLoopbackHost_spec (h : string) :
  isLoopbackHost h = true <->
  h = "localhost" \/ h = "127.0.0.1" \/ h = "::1".
Proof.
  unfold isLoopbackHost.
  rewrite !orb_true_iff, !String.eqb_eq. tauto.
Qed.

(** Both branches that consult the configuration compute the same URL. *)
Lemma getWebSocketUrl_configured (g : GlobalThis) :
  match window g with
  | Some w => isLoopbackHost (hostname (location w)) = true
  | None => True
  end ->
  getWebSocketUrl g = toWebSocketBaseUrl (getServerBaseUrl g) ++ "/ws/chat".
Proof.
  unfold getWebSocketUrl. destruct (window g) as [w|]; intros H.
  - rewrite H. reflexivity.
  - reflexivity.
Qed.

Lemma getWebSocketUrl_page (g : GlobalThis) (w : Window) :
  window g = Some w ->
  isLoopbackHost (hostname (location w)) = false ->
  getWebSocketUrl g =
    (if protocol (location w) =? "https:" then "wss:" else "ws:")
      ++ "//" ++ host (location w) ++ "/ws/chat".
Proof.
  intros Hw Hl. unfold getWebSocketUrl. rewrite Hw, Hl. reflexivity.
Qed.

Lemma getServerBaseUrl_absent (p : option Process) (w : option Window) :
  base_url_absent p = true ->
  getServerBaseUrl (mkGlobalThis p w) = DEFAULT_SERVER_BASE_URL.
Proof.
  destruct p as [[[[[v|]]|]]|]; simpl; intros H;
    try discriminate; reflexivity.
Qed.

(** ** The resolver's contract *)

(** C1: in a browser whose page hostname is not a loopback host, the
    resolver returns scheme, "//", the page's own host (port included) and
    "/ws/chat", where the scheme is "wss:" for an "https:" page and "ws:"
    for any other page protocol. *)
Theorem resolve_non_loopback (g : GlobalThis) (w : Window) :
  window g = Some w ->
  isLoopbackHost (hostname (location w)) = false ->
  getWebSocketUrl g =
    (if protocol (location w) =? "https:" then "wss:" else "ws:")
      ++ "//" ++ host (location w) ++ "/ws/chat".
Proof. exact (getWebSocketUrl_page g w). Qed.

Lemma resolve_non_loopback_witness :
  getWebSocketUrl
    (browser (with_base_url "https://api.example.com")
       (mkLocation "https:" "wiki.example.com:8443" "wiki.example.com"))
  = "wss://wiki.example.com:8443/ws/chat".
Proof.
  exact (resolve_non_loopback
           (browser (with_base_url "https://api.example.com")
              (mkLocation "https:" "wiki.example.com:8443" "wiki.example.com"))
           (mkWindow (mkLocation "https:" "wiki.example.com:8443" "wiki.example.com"))
           eq_refl eq_refl).
Defined.

(** C2, as stated, fails: on a loopback page the configured base URL is
    not always rewritten to a WebSocket scheme.  With the base URL
    "ftp://files.example.com" a page on localhost gets
    "ftp://files.example.com/ws/chat", which starts with neither "ws:" nor
    "wss:". *)
Lemma loopback_page_keeps_ftp_scheme :
  isLoopbackHost "localhost" = true
  /\ getWebSocketUrl
       (browser (with_base_url "ftp://files.example.com")
          (mkLocation "http:" "localhost:3000" "localhost"))
     = "ftp://files.example.com/ws/chat"
  /\ prefix "ws:"
       (getWebSocketUrl
          (browser (with_base_url "ftp://files.example.com")
             (mkLocation "http:" "localhost:3000" "localhost")))
     = false
  /\ prefix "wss:"
       (getWebSocketUrl
          (browser (with_base_url "ftp://files.example.com")
             (mkLocation "http:" "localhost:3000" "localhost")))
     = false.
Proof. repeat split. Qed.

(** C2, amended: in a browser whose page hostname is "localhost",
    "127.0.0.1" or "::1", the resolver returns the configured base URL
    after the scheme rewrite, followed by "/ws/chat": a leading "https:"
    has become "wss:", a leading "http:" has become "ws:", and a base URL
    that starts with neither is used unchanged.  The page's protocol, host
    and port play no part, so any two loopback pages under the same
    configuration, and the server side, get the same URL. *)
Theorem resolve_loopback (g : GlobalThis) (w : Window) :
  window g = Some w ->
  hostname (location w) = "localhost" \/
  hostname (location w) = "127.0.0.1" \/
  hostname (location w) = "::1" ->
  getWebSocketUrl g = toWebSocketBaseUrl (getServerBaseUrl g) ++ "/ws/chat"
  /\ (forall rest,
        getServerBaseUrl g = "https:" ++ rest ->
        getWebSocketUrl g = "wss:" ++ rest ++ "/ws/chat")
  /\ (forall rest,
        getServerBaseUrl g = "http:" ++ rest ->
        getWebSocketUrl g = "ws:" ++ rest ++ "/ws/chat")
  /\ (prefix "https:" (getServerBaseUrl g) = false ->
      prefix "http:" (getServerBaseUrl g) = false ->
      getWebSocketUrl g = getServerBaseUrl g ++ "/ws/chat")
  /\ getWebSocketUrl g = getWebSocketUrl (server_side (process g))
  /\ forall l' : Location,
       isLoopbackHost (hostname l') = true ->
       getWebSocketUrl (browser (process g) l') = getWebSocketUrl g.
Proof.
  intros Hw Hl. apply isLoopbackHost_spec in Hl.
  assert (E : getWebSocketUrl g
              = toWebSocketBaseUrl (getServerBaseUrl g) ++ "/ws/chat").
  { apply getWebSocketUrl_configured. rewrite Hw. exact Hl. }
  split; [exact E|]. split; [|split; [|split; [|split]]].
  - intros rest Hb. rewrite E, Hb, toWebSocketBaseUrl_https. reflexivity.
  - intros rest Hb. rewrite E, Hb, toWebSocketBaseUrl_http. reflexivity.
  - intros P1 P2. rewrite E, (toWebSocketBaseUrl_other _ P1 P2). reflexivity.
  - rewrite E. reflexivity.
  - intros l' Hl'. rewrite E.
    rewrite getWebSocketUrl_configured by exact Hl'. reflexivity.
Qed.

Lemma resolve_loopback_witness :
  getWebSocketUrl
    (browser (with_base_url "https://api.example.com")
       (mkLocation "http:" "127.0.0.1:3000" "127.0.0.1"))
  = "wss://api.example.com/ws/chat".
Proof.
  exact (proj1
           (resolve_loopback
              (browser (with_base_url "https://api.example.com")
                 (mkLocation "http:" "127.0.0.1:3000" "127.0.0.1"))
              (mkWindow (mkLocation "http:" "127.0.0.1:3000" "127.0.0.1"))
              eq_refl (or_intror (or_introl eq_refl)))).
Defined.

(** C3, as stated, fails: a base URL whose scheme is neither "https:" nor
    "http:" comes back as it went in, so its scheme is not "ws:". *)
Lemma ftp_base_url_keeps_scheme :
  prefix "https:" "ftp://files.example.com" = false
  /\ toWebSocketBaseUrl "ftp://files.example.com" = "ftp://files.example.com"
  /\ prefix "ws:" (toWebSocketBaseUrl "ftp://files.example.com") = false.
Proof. repeat split. Qed.

(** C3, amended: the rewrite turns a leading "https:" into "wss:" and a
    leading "http:" into "ws:", and returns every other string unchanged;
    with the configuration value "https://api.example.com" the resolver, on
    the paths that consult the configuration, yields
    "wss://api.example.com/ws/chat". *)
Theorem scheme_rewrite :
  (forall rest, toWebSocketBaseUrl ("https:" ++ rest) = "wss:" ++ rest)
  /\ (forall rest, toWebSocketBaseUrl ("http:" ++ rest) = "ws:" ++ rest)
  /\ (forall baseUrl,
        prefix "https:" baseUrl = false ->
        prefix "http:" baseUrl = false ->
        toWebSocketBaseUrl baseUrl = baseUrl)
  /\ getWebSocketUrl (server_side (with_base_url "https://api.example.com"))
     = "wss://api.example.com/ws/chat"
  /\ (forall l : Location,
        isLoopbackHost (hostname l) = true ->
        getWebSocketUrl (browser (with_base_url "https://api.example.com") l)
        = "wss://api.example.com/ws/chat").
Proof.
  split; [exact toWebSocketBaseUrl_https|].
  split; [exact toWebSocketBaseUrl_http|].
  split; [exact toWebSocketBaseUrl_other|].
  split; [reflexivity|].
  intros l Hl. rewrite getWebSocketUrl_configured by exact Hl. reflexivity.
Qed.

Lemma scheme_rewrite_witness :
  toWebSocketBaseUrl "localhost:8001" = "localhost:8001"
  /\ getWebSocketUrl
       (browser (with_base_url "https://api.example.com")
          (mkLocation "http:" "localhost:3000" "localhost"))
     = "wss://api.example.com/ws/chat".
Proof.
  split.
  - exact (proj1 (proj2 (proj2 scheme_rewrite)) "localhost:8001" eq_refl eq_refl).
  - exact (proj2 (proj2 (proj2 (proj2 scheme_rewrite)))
             (mkLocation "http:" "localhost:3000" "localhost") eq_refl).
Defined.

(** C4: with SERVER_BASE_URL absent, the server-side path and the browser
    loopback path both return "ws://localhost:8001/ws/chat", the default
    base URL "http://localhost:8001" rewritten. *)
Theorem resolve_default (p : option Process) :
  base_url_absent p = true ->
  (forall w, getServerBaseUrl (mkGlobalThis p w) = "http://localhost:8001")
  /\ getWebSocketUrl (server_side p) = "ws://localhost:8001/ws/chat"
  /\ (forall l : Location,
        isLoopbackHost (hostname l) = true ->
        getWebSocketUrl (browser p l) = "ws://localhost:8001/ws/chat").
Proof.
  intros Hp. split; [|split].
  - intros w. apply getServerBaseUrl_absent. exact Hp.
  - rewrite getWebSocketUrl_configured by exact I.
    unfold server_side. rewrite getServerBaseUrl_absent by exact Hp.
    reflexivity.
  - intros l Hl. rewrite getWebSocketUrl_configured by exact Hl.
    unfold browser. rewrite getServerBaseUrl_absent by exact Hp.
    reflexivity.
Qed.

Lemma resolve_default_witness :
  getWebSocketUrl (server_side (Some (mkProcess (Some (mkProcessEnv None)))))
  = "ws://localhost:8001/ws/chat"
  /\ getWebSocketUrl
       (browser (Some (mkProcess (Some (mkProcessEnv None))))
          (mkLocation "http:" "localhost:3000" "localhost"))
     = "ws://localhost:8001/ws/chat".
Proof.
  split.
  - exact (proj1 (proj2
             (resolve_default (Some (mkProcess (Some (mkProcessEnv None)))) eq_refl))).
  - exact (proj2 (proj2
             (resolve_default (Some (mkProcess (Some (mkProcessEnv None)))) eq_refl))
             (mkLocation "http:" "localhost:3000" "localhost") eq_refl).
Defined.

(** C8: in every execution context and under every configuration the
    resolved URL ends with "/ws/chat". *)
Theorem resolve_suffix (g : GlobalThis) :
  exists base : string, getWebSocketUrl g = base ++ "/ws/chat".
Proof.
  unfold getWebSocketUrl. destruct (window g) as [w|].
  - destruct (isLoopbackHost (hostname (location w))).
    + eexists. reflexivity.
    + exists ((if protocol (location w) =? "https:" then "wss:" else "ws:")
                ++ "//" ++ host (location w)).
      destruct (protocol (location w) =? "https:"); reflexivity.
  - eexists. reflexivity.
Qed.

(** C9: SERVER_BASE_URL present but empty makes the lookup return the
    default "http://localhost:8001", the same as when it is absent. *)
Theorem empty_base_url_falls_back (w : option Window) (p : option Process) :
  base_url_absent p = true ->
  getServerBaseUrl (mkGlobalThis (with_base_url "") w) = "http://localhost:8001"
  /\ getServerBaseUrl (mkGlobalThis (with_base_url "") w)
     = getServerBaseUrl (mkGlobalThis p w).
Proof.
  intros Hp. split; [reflexivity|].
  rewrite (getServerBaseUrl_absent p w Hp). reflexivity.
Qed.

Lemma empty_base_url_falls_back_witness :
  getServerBaseUrl (mkGlobalThis (with_base_url "") None)
  = getServerBaseUrl (mkGlobalThis None None).
Proof.
  exact (proj2 (empty_base_url_falls_back None None eq_refl)).
Defined.

(** C10: the loopback test holds exactly for the three strings "localhost",
    "127.0.0.1" and "::1", compared case-sensitively; "LOCALHOST",
    "127.0.0.2" and "[::1]" are not loopback, and every page whose hostname
    is none of the three is resolved with the page's own host. *)
Theorem loopback_test_exact :
  (forall h,
     isLoopbackHost h = true <->
     h = "localhost" \/ h = "127.0.0.1" \/ h = "::1")
  /\ isLoopbackHost "LOCALHOST" = false
  /\ isLoopbackHost "127.0.0.2" = false
  /\ isLoopbackHost "[::1]" = false
  /\ (forall g w,
        window g = Some w ->
        hostname (location w) <> "localhost" ->
        hostname (location w) <> "127.0.0.1" ->
        hostname (location w) <> "::1" ->
        getWebSocketUrl g =
          (if protocol (location w) =? "https:" then "wss:" else "ws:")
            ++ "//" ++ host (location w) ++ "/ws/chat").
Proof.
  split; [exact isLoopbackHost_spec|].
  repeat (split; [reflexivity|]).
  intros g w Hw N1 N2 N3. apply getWebSocketUrl_page; [exact Hw|].
  destruct (isLoopbackHost (hostname (location w))) eqn:E; [|reflexivity].
  apply isLoopbackHost_spec in E. tauto.
Qed.

Lemma loopback_test_exact_witness :
  getWebSocketUrl
    (browser None (mkLocation "http:" "[::1]:3000" "[::1]"))
  = "ws://[::1]:3000/ws/chat".
Proof.
  refine (proj2 (proj2 (proj2 (proj2 loopback_test_exact)))
            (browser None (mkLocation "http:" "[::1]:3000" "[::1]"))
            (mkWindow (mkLocation "http:" "[::1]:3000" "[::1]"))
            eq_refl _ _ _); discriminate.
Defined.

(** ** The wiring under the event loop *)

Local Open Scope list_scope.

Lemma sent_frames_app (a b : list Action) :
  sent_frames (a ++ b) = sent_frames a ++ sent_frames b.
Proof.
  induction a as [|x a IH]; simpl; [reflexivity|].
  destruct x; simpl; rewrite IH; reflexivity.
Qed.

Lemma onMessage_calls_app (a b : list Action) :
  onMessage_calls (a ++ b) = onMessage_calls a ++ onMessage_calls b.
Proof.
  induction a as [|x a IH]; simpl; [reflexivity|].
  destruct x; simpl; rewrite IH; reflexivity.
Qed.

Section WiredSocket.

Variable JSON_stringify : ChatCompletionRequest -> string.
Variable g : GlobalThis.
Variable request : ChatCompletionRequest.

(** The socket as [createChatWebSocket] returned it; later states differ
    from it in [conn] only, the handlers are never reassigned. *)
Local Abbreviation ws0 := (probed JSON_stringify g request).
Local Abbreviation frame := (JSON_stringify request).

Lemma probed_conn :
  conn ws0 = mkConn (getWebSocketUrl g) CONNECTING [Connect (getWebSocketUrl g)].
Proof. reflexivity. Qed.

Lemma set_conn_probed : set_conn (conn ws0) ws0 = ws0.
Proof. reflexivity. Qed.

(** One step, in closed form. *)
Lemma step_wired (st : Step) (u : string) (rs : ReadyState) (t : list Action) :
  step st (set_conn (mkConn u rs t) ws0) =
  option_map
    (fun rs' => set_conn (mkConn u rs' (t ++ step_actions frame st rs)) ws0)
    (state_after st rs).
Proof.
  destruct st as [ | m | [e|] | ]; destruct rs; simpl;
    try reflexivity;
    unfold run_handler, set_conn, bind, console_log, console_error, emit,
      ws_send, probe_onMessage, probe_onError, probe_onClose; simpl;
    rewrite <- ?app_assoc; simpl; try rewrite app_nil_r; reflexivity.
Qed.

Lemma state_after_not_connecting (st : Step) (rs rs' : ReadyState) :
  state_after st rs = Some rs' ->
  (is_Opens st = true -> rs = CONNECTING)
  /\ (is_Opens st = true \/ rs <> CONNECTING -> rs' <> CONNECTING).
Proof.
  destruct st, rs; simpl; intros H; inversion H; subst;
    (split; [intros; congruence | intros [?|?]; congruence]).
Qed.

Lemma step_actions_sent (st : Step) (rs : ReadyState) :
  sent_frames (step_actions frame st rs) = if is_Opens st then [frame] else [].
Proof. destruct st as [ | m | [e|] | ]; destruct rs; reflexivity. Qed.

Lemma step_actions_onMessage (st : Step) (rs : ReadyState) :
  onMessage_calls (step_actions frame st rs) = received [st].
Proof. destruct st as [ | m | [e|] | ]; destruct rs; reflexivity. Qed.

(** Outbound frames over a whole run: the request, once, if the socket
    opened; and a socket that left CONNECTING never opens again. *)
Lemma run_sent (sts : list Step) :
  forall u rs t ws',
    run sts (set_conn (mkConn u rs t) ws0) = Some ws' ->
    sent_frames (trace (conn ws')) =
      sent_frames t ++ (if existsb is_Opens sts then [frame] else [])
    /\ (rs <> CONNECTING -> existsb is_Opens sts = false).
Proof.
  induction sts as [|st rest IH]; intros u rs t ws' H.
  - simpl in H. inversion H; subst. simpl. rewrite app_nil_r. auto.
  - simpl in H. rewrite step_wired in H.
    destruct (state_after st rs) as [rs'|] eqn:E; simpl in H; [|discriminate].
    destruct (state_after_not_connecting _ _ _ E) as [Ho Hn].
    destruct (IH _ _ _ _ H) as [Hs Hr].
    rewrite Hs, sent_frames_app, step_actions_sent. simpl.
    destruct (is_Opens st) eqn:Eo; simpl.
    + rewrite Hr by (apply Hn; left; reflexivity).
      rewrite <- app_assoc. split; [reflexivity|].
      intros N. exfalso. apply N, Ho. reflexivity.
    + rewrite app_nil_r. split; [reflexivity|].
      intros N. apply Hr, Hn. right. exact N.
Qed.

(** Callback invocations over a whole run: the received payloads, in order. *)
Lemma run_onMessage (sts : list Step) :
  forall u rs t ws',
    run sts (set_conn (mkConn u rs t) ws0) = Some ws' ->
    onMessage_calls (trace (conn ws')) = onMessage_calls t ++ received sts.
Proof.
  induction sts as [|st rest IH]; intros u rs t ws' H.
  - simpl in H. inversion H; subst. simpl. rewrite app_nil_r. reflexivity.
  - simpl in H. rewrite step_wired in H.
    destruct (state_after st rs) as [rs'|] eqn:E; simpl in H; [|discriminate].
    rewrite (IH _ _ _ _ H), onMessage_calls_app, step_actions_onMessage.
    rewrite <- app_assoc. f_equal.
    destruct st; reflexivity.
Qed.

(** An open socket accepts any number of text frames and stays open. *)
Lemma run_text_frames (frames : list string) :
  forall u t,
    exists t',
      run (map text_frame frames) (set_conn (mkConn u OPEN t) ws0)
      = Some (set_conn (mkConn u OPEN t') ws0).
Proof.
  induction frames as [|f frames IH]; intros u t.
  - exists t. reflexivity.
  - simpl map. unfold run; fold run. unfold text_frame at 1.
    rewrite step_wired. simpl. apply IH.
Qed.

Lemma received_text_frames (frames : list string) :
  received (map text_frame frames) = map Text frames.
Proof.
  induction frames as [|f frames IH]; simpl; [reflexivity|].
  rewrite IH. reflexivity.
Qed.

End WiredSocket.

(** ** The opener's and the closer's contract *)

(** C5: when the open event fires on a socket returned by
    [createChatWebSocket], the handler logs and sends one frame, the JSON
    serialization of the request exactly as it was passed in; over any
    life of the connection (frames received, failure, close, the caller
    closing) the frames sent are that single one if the socket opened and
    none otherwise. *)
Theorem open_sends_request_once
    (JSON_stringify : ChatCompletionRequest -> string)
    (g : GlobalThis) (request : ChatCompletionRequest) :
  (exists ws1,
      step Opens (probed JSON_stringify g request) = Some ws1
      /\ trace (conn ws1) =
           [Connect (getWebSocketUrl g);
            Log "WebSocket connection established";
            Sent (JSON_stringify request)])
  /\ (forall sts ws',
        run sts (probed JSON_stringify g request) = Some ws' ->
        sent_frames (trace (conn ws')) =
          if existsb is_Opens sts then [JSON_stringify request] else []).
Proof.
  split.
  - eexists. split; reflexivity.
  - intros sts ws' H.
    rewrite <- (set_conn_probed JSON_stringify g request) in H.
    rewrite probed_conn in H.
    destruct (run_sent JSON_stringify g request _ _ _ _ _ H) as [Hs _].
    exact Hs.
Qed.

Lemma open_sends_request_once_witness :
  sent_frames
    [Connect "ws://localhost:8001/ws/chat";
     Log "WebSocket connection established";
     Sent "deepwiki";
     CalledOnMessage (Text "foo");
     CloseStarted;
     Log "WebSocket connection closed";
     CalledOnClose]
  = ["deepwiki"].
Proof.
  exact (proj2
           (open_sends_request_once repo_url (server_side None)
              (mkChatCompletionRequest "deepwiki" [mkChatMessage user "hi"]
                 None None None None None None None None))
           [Opens; text_frame "foo"; CallerCloses; Closed None]
           _ eq_refl).
Defined.

(** C6: over any life of a connection returned by [createChatWebSocket],
    onMessage is called once per received frame, in delivery order, with
    that frame's payload as it arrived; every sequence of text frames can
    be delivered to an open socket, and "foo" then "bar" gives exactly the
    two calls onMessage("foo"), onMessage("bar"). *)
Theorem frames_forwarded_verbatim
    (JSON_stringify : ChatCompletionRequest -> string)
    (g : GlobalThis) (request : ChatCompletionRequest) :
  (forall sts ws',
      run sts (probed JSON_stringify g request) = Some ws' ->
      onMessage_calls (trace (conn ws')) = received sts)
  /\ (forall frames : list string,
        exists ws',
          run (Opens :: map text_frame frames) (probed JSON_stringify g request)
          = Some ws'
          /\ onMessage_calls (trace (conn ws')) = map Text frames)
  /\ (exists ws',
        run [Opens; text_frame "foo"; text_frame "bar"]
          (probed JSON_stringify g request)
        = Some ws'
        /\ onMessage_calls (trace (conn ws')) = [Text "foo"; Text "bar"]).
Proof.
  assert (G : forall sts ws',
             run sts (probed JSON_stringify g request) = Some ws' ->
             onMessage_calls (trace (conn ws')) = received sts).
  { intros sts ws' H.
    rewrite <- (set_conn_probed JSON_stringify g request) in H.
    rewrite probed_conn in H.
    exact (run_onMessage JSON_stringify g request _ _ _ _ _ H). }
  split; [exact G|]. split.
  - intros frames.
    destruct (run_text_frames JSON_stringify g request frames
                (getWebSocketUrl g)
                ([Connect (getWebSocketUrl g)]
                   ++ step_actions (JSON_stringify request) Opens CONNECTING))
      as [t' Ht].
    eexists. split.
    + unfold run; fold run.
      rewrite <- (set_conn_probed JSON_stringify g request) at 1.
      rewrite probed_conn, step_wired. simpl option_map. exact Ht.
    + change (onMessage_calls t' = map Text frames).
      assert (R : run (Opens :: map text_frame frames)
                    (probed JSON_stringify g request)
                  = Some (set_conn (mkConn (getWebSocketUrl g) OPEN t')
                            (probed JSON_stringify g request))).
      { unfold run; fold run.
        rewrite <- (set_conn_probed JSON_stringify g request) at 1.
        rewrite probed_conn, step_wired. simpl option_map. exact Ht. }
      apply G in R. simpl in R. rewrite received_text_frames in R. exact R.
  - eexists. split; reflexivity.
Qed.

Lemma frames_forwarded_verbatim_witness :
  onMessage_calls
    [Connect "ws://localhost:8001/ws/chat";
     Log "WebSocket connection established";
     Sent "deepwiki";
     CalledOnMessage (Text "foo");
     CalledOnMessage (Binary [Byte.x00; Byte.xff]);
     CalledOnMessage (Text "bar");
     Log "WebSocket connection closed";
     CalledOnClose]
  = [Text "foo"; Binary [Byte.x00; Byte.xff]; Text "bar"].
Proof.
  exact (proj1
           (frames_forwarded_verbatim repo_url (server_side None)
              (mkChatCompletionRequest "deepwiki" [mkChatMessage user "hi"]
                 None None None None None None None None))
           [Opens; text_frame "foo";
            Receives (mkMessageEvent (Binary [Byte.x00; Byte.xff]));
            text_frame "bar"; Closed None]
           _ eq_refl).
Defined.

(** C7: [closeWebSocket] returns normally on every handle; it leaves a
    null handle and a handle that is connecting, closing or closed exactly
    as they were, and on an open handle it starts the close handshake,
    once; so the handle is changed exactly when it is present and open. *)
Theorem close_only_when_open :
  (forall h, fst (closeWebSocket h) = Returned tt)
  /\ closeWebSocket None = (Returned tt, None)
  /\ (forall s,
        readyState (conn s) <> OPEN ->
        closeWebSocket (Some s) = (Returned tt, Some s))
  /\ (forall s,
        readyState (conn s) = OPEN ->
        closeWebSocket (Some s) =
          (Returned tt,
           Some (set_conn
                   (mkConn (url (conn s)) CLOSING
                      (trace (conn s) ++ [CloseStarted])) s)))
  /\ (forall h,
        snd (closeWebSocket h) = h <->
        ~ (exists s, h = Some s /\ readyState (conn s) = OPEN)).
Proof.
  split; [|split; [|split; [|split]]].
  - intros [s|]; [|reflexivity].
    unfold closeWebSocket, ws_close.
    destruct (readyState (conn s)); reflexivity.
  - reflexivity.
  - intros s N. unfold closeWebSocket.
    destruct (readyState (conn s)); simpl; congruence.
  - intros s E. unfold closeWebSocket, ws_close. rewrite E. reflexivity.
  - intros [s|]; simpl.
    + unfold ws_close. destruct (readyState (conn s)) eqn:E; simpl; split;
        try (intros _ [s' [Hs Ho]]; inversion Hs; subst; congruence);
        try reflexivity.
      * intros H. inversion H as [H']. rewrite <- H' in E. simpl in E.
        discriminate.
      * intros N. exfalso. apply N. exists s. auto.
    + split; [|reflexivity]. intros _ [s [Hs _]]. discriminate.
Qed.

Lemma close_only_when_open_witness :
  closeWebSocket
    (Some (mkWebSocket (mkConn "ws://localhost:8001/ws/chat" CONNECTING [])
             None None None None))
  = (Returned tt,
     Some (mkWebSocket (mkConn "ws://localhost:8001/ws/chat" CONNECTING [])
             None None None None))
  /\ snd (closeWebSocket
            (Some (mkWebSocket (mkConn "ws://localhost:8001/ws/chat" OPEN [])
                     None None None None)))
     = Some (mkWebSocket
               (mkConn "ws://localhost:8001/ws/chat" CLOSING [CloseStarted])
               None None None None).
Proof.
  split.
  - refine (proj1 (proj2 (proj2 close_only_when_open))
              (mkWebSocket (mkConn "ws://localhost:8001/ws/chat" CONNECTING [])
                 None None None None) _).
    discriminate.
  - exact (f_equal snd
             (proj1 (proj2 (proj2 (proj2 close_only_when_open)))
                (mkWebSocket (mkConn "ws://localhost:8001/ws/chat" OPEN [])
                   None None None None) eq_refl)).
Defined.

(** ** Further properties of the resolver *)

Lemma strip_prefix_prefix (p : string) :
  forall s,
    prefix p s = match strip_prefix p s with Some _ => true | None => false end.
Proof.
  induction p as [|a p IH]; intros s.
  - destruct s; reflexivity.
  - destruct s as [|b s]; simpl; [reflexivity|].
    destruct (ascii_dec a b) as [->|N].
    + rewrite Ascii.eqb_refl. apply IH.
    + apply Ascii.eqb_neq in N. rewrite N. reflexivity.
Qed.

(** The three ways the rewrite can go. *)
Lemma toWebSocketBaseUrl_cases (s : string) :
  (exists r, s = ("https:" ++ r)%string
             /\ toWebSocketBaseUrl s = ("wss:" ++ r)%string)
  \/ (exists r, s = ("http:" ++ r)%string
                /\ toWebSocketBaseUrl s = ("ws:" ++ r)%string)
  \/ (prefix "https:" s = false /\ prefix "http:" s = false
      /\ toWebSocketBaseUrl s = s).
Proof.
  destruct (strip_prefix "https:" s) as [r|] eqn:E1.
  - left. exists r. apply strip_prefix_Some in E1. subst s.
    split; [reflexivity | apply toWebSocketBaseUrl_https].
  - destruct (strip_prefix "http:" s) as [r|] eqn:E2.
    + right; left. exists r. apply strip_prefix_Some in E2. subst s.
      split; [reflexivity | apply toWebSocketBaseUrl_http].
    + right; right.
      assert (P1 : prefix "https:" s = false)
        by (rewrite strip_prefix_prefix, E1; reflexivity).
      assert (P2 : prefix "http:" s = false)
        by (rewrite strip_prefix_prefix, E2; reflexivity).
      repeat split; try assumption.
      apply toWebSocketBaseUrl_other; assumption.
Qed.

Lemma toWebSocketBaseUrl_no_http (s : string) :
  prefix "https:" (toWebSocketBaseUrl s) = false
  /\ prefix "http:" (toWebSocketBaseUrl s) = false.
Proof.
  destruct (toWebSocketBaseUrl_cases s)
    as [[r [_ ->]] | [[r [_ ->]] | [P1 [P2 ->]]]]; auto.
Qed.

Lemma toWebSocketBaseUrl_nonempty (s : string) :
  s <> ""%string -> toWebSocketBaseUrl s <> ""%string.
Proof.
  intros N.
  destruct (toWebSocketBaseUrl_cases s)
    as [[r [_ ->]] | [[r [_ ->]] | [_ [_ ->]]]];
    [discriminate | discriminate | exact N].
Qed.

Lemma getServerBaseUrl_nonempty (g : GlobalThis) :
  getServerBaseUrl g <> ""%string.
Proof.
  unfold getServerBaseUrl, or_default.
  destruct (process g) as [[[[[[|a v]|]]|]]|]; simpl; discriminate.
Qed.

(** X1: a SERVER_BASE_URL that is present and not empty is returned as it
    is, and the configured paths append "/ws/chat" to its rewrite: nothing
    is trimmed or normalised. *)
Theorem configured_base_url_verbatim (v : string) :
  v <> ""%string ->
  (forall w, getServerBaseUrl (mkGlobalThis (with_base_url v) w) = v)
  /\ getWebSocketUrl (server_side (with_base_url v))
     = (toWebSocketBaseUrl v ++ "/ws/chat")%string
  /\ (forall l,
        isLoopbackHost (hostname l) = true ->
        getWebSocketUrl (browser (with_base_url v) l)
        = (toWebSocketBaseUrl v ++ "/ws/chat")%string).
Proof.
  intros N.
  assert (G : forall w, getServerBaseUrl (mkGlobalThis (with_base_url v) w) = v).
  { intros w. destruct v; [congruence | reflexivity]. }
  split; [exact G|]. split.
  - rewrite getWebSocketUrl_configured by exact I.
    unfold server_side. rewrite G. reflexivity.
  - intros l Hl. rewrite getWebSocketUrl_configured by exact Hl.
    unfold browser. rewrite G. reflexivity.
Qed.

Lemma configured_base_url_verbatim_witness :
  getWebSocketUrl (server_side (with_base_url "http://10.0.0.5:9000/api/"))
  = "ws://10.0.0.5:9000/api//ws/chat"%string.
Proof.
  refine (proj1 (proj2
            (configured_base_url_verbatim "http://10.0.0.5:9000/api/" _))).
  discriminate.
Defined.

(** X2: the base URL looked up is never the empty string, and neither is
    its rewrite, in any environment. *)
Theorem base_url_never_empty (g : GlobalThis) :
  getServerBaseUrl g <> ""%string
  /\ toWebSocketBaseUrl (getServerBaseUrl g) <> ""%string.
Proof.
  split.
  - apply getServerBaseUrl_nonempty.
  - apply toWebSocketBaseUrl_nonempty, getServerBaseUrl_nonempty.
Qed.

(** X3: whatever the input, the rewritten base URL starts with neither
    "http:" nor "https:". *)
Theorem rewrite_leaves_no_http_scheme (baseUrl : string) :
  prefix "https:" (toWebSocketBaseUrl baseUrl) = false
  /\ prefix "http:" (toWebSocketBaseUrl baseUrl) = false.
Proof. exact (toWebSocketBaseUrl_no_http baseUrl). Qed.

(** X4: the rewrite is idempotent: rewriting a rewritten base URL changes
    nothing. *)
Theorem rewrite_idempotent (baseUrl : string) :
  toWebSocketBaseUrl (toWebSocketBaseUrl baseUrl) = toWebSocketBaseUrl baseUrl.
Proof.
  destruct (toWebSocketBaseUrl_no_http baseUrl) as [P1 P2].
  apply toWebSocketBaseUrl_other; assumption.
Qed.

(** X5: on a non-loopback page the configuration plays no part: the
    resolved URL is the same whatever [process] holds. *)
Theorem non_loopback_ignores_configuration (p p' : option Process) (l : Location) :
  isLoopbackHost (hostname l) = false ->
  getWebSocketUrl (browser p l) = getWebSocketUrl (browser p' l).
Proof.
  intros Hl.
  rewrite (getWebSocketUrl_page (browser p l) (mkWindow l) eq_refl Hl).
  rewrite (getWebSocketUrl_page (browser p' l) (mkWindow l) eq_refl Hl).
  reflexivity.
Qed.

Lemma non_loopback_ignores_configuration_witness :
  getWebSocketUrl
    (browser (with_base_url "https://api.example.com")
       (mkLocation "http:" "wiki.example.com" "wiki.example.com"))
  = getWebSocketUrl
      (browser None (mkLocation "http:" "wiki.example.com" "wiki.example.com")).
Proof.
  exact (non_loopback_ignores_configuration
           (with_base_url "https://api.example.com") None
           (mkLocation "http:" "wiki.example.com" "wiki.example.com") eq_refl).
Defined.

(** X6: on a non-loopback page the resolved URL starts with "wss://"
    exactly when the page protocol is "https:", and with "ws://" in every
    other case. *)
Theorem non_loopback_scheme_follows_page (p : option Process) (l : Location) :
  isLoopbackHost (hostname l) = false ->
  (prefix "wss://" (getWebSocketUrl (browser p l)) = true
   <-> protocol l = "https:"%string)
  /\ (protocol l <> "https:"%string ->
      prefix "ws://" (getWebSocketUrl (browser p l)) = true).
Proof.
  intros Hl.
  rewrite (getWebSocketUrl_page (browser p l) (mkWindow l) eq_refl Hl).
  simpl location.
  destruct (String.eqb_spec (protocol l) "https:") as [E|N].
  - split.
    + split; [intros _; exact E|]. intros _. destruct (host l); reflexivity.
    + intros N. contradiction.
  - split.
    + split; [discriminate | contradiction].
    + intros _. destruct (host l); reflexivity.
Qed.

Lemma non_loopback_scheme_follows_page_witness :
  prefix "ws://"
    (getWebSocketUrl
       (browser None (mkLocation "file:" "wiki.example.com" "wiki.example.com")))
  = true.
Proof.
  refine (proj2
            (non_loopback_scheme_follows_page None
               (mkLocation "file:" "wiki.example.com" "wiki.example.com")
               eq_refl) _).
  discriminate.
Defined.

(** ** Further properties of the wiring *)

Lemma close_handshakes_app (a b : list Action) :
  close_handshakes (a ++ b) = close_handshakes a + close_handshakes b.
Proof.
  induction a as [|x a IH]; simpl; [reflexivity|].
  destruct x; simpl; rewrite IH; reflexivity.
Qed.

Lemma run_trace_cons (f : string) (st : Step) (rest : list Step)
    (rs rs' : ReadyState) (d : list Action) :
  run_trace f (st :: rest) rs = Some (rs', d) ->
  exists rs1 d1,
    state_after st rs = Some rs1
    /\ run_trace f rest rs1 = Some (rs', d1)
    /\ d = step_actions f st rs ++ d1.
Proof.
  simpl. destruct (state_after st rs) as [rs1|] eqn:E1; [|discriminate].
  destruct (run_trace f rest rs1) as [[rs2 d1]|] eqn:E2; [|discriminate].
  intros H. inversion H; subst. exists rs1, d1.
  split; [reflexivity|]. split; [exact E2 | reflexivity].
Qed.

Ltac run_trace_step H :=
  apply run_trace_cons in H;
  let rs1 := fresh "rs1" in
  let d1 := fresh "d1" in
  let Hs := fresh "Hs" in
  let Hr := fresh "Hr" in
  destruct H as (rs1 & d1 & Hs & Hr & ->).

(** Once closed, a socket accepts nothing but the caller's close calls,
    and those do nothing. *)
Lemma run_trace_from_closed (f : string) (sts : list Step) :
  forall rs' d,
    run_trace f sts CLOSED = Some (rs', d) ->
    rs' = CLOSED /\ d = []
    /\ existsb is_Closed sts = false /\ existsb is_Opens sts = false
    /\ failures sts = [] /\ received sts = [].
Proof.
  induction sts as [|st rest IH]; intros rs' d H.
  - simpl in H. inversion H. repeat split; reflexivity.
  - run_trace_step H.
    destruct st as [ | m | [e|] | ]; simpl in Hs; try discriminate.
    inversion Hs; subst. exact (IH _ _ Hr).
Qed.

(** Callbacks for closing: [onClose] once if the connection closed, as the
    last action, after [onError] with the failure if there was one. *)
Lemma run_trace_closing (f : string) (sts : list Step) :
  forall rs rs' d,
    run_trace f sts rs = Some (rs', d) ->
    onClose_calls d = (if existsb is_Closed sts then 1 else 0)
    /\ onError_calls d = failures sts
    /\ length (failures sts) <= 1
    /\ (existsb is_Closed sts = true ->
        rs' = CLOSED /\ exists pre, d = pre ++ [CalledOnClose]).
Proof.
  induction sts as [|st rest IH]; intros rs rs' d H.
  - simpl in H. inversion H; subst. simpl.
    split; [reflexivity|]. split; [reflexivity|]. split; [lia|]. discriminate.
  - run_trace_step H.
    destruct st as [ | m | fl | ].
    + destruct (IH _ _ _ Hr) as (H1 & H2 & H3 & H4). simpl.
      split; [exact H1|]. split; [exact H2|]. split; [exact H3|].
      intros E. destruct (H4 E) as [? [pre ->]]. split; [assumption|].
      exists (Log "WebSocket connection established" :: Sent f :: pre).
      reflexivity.
    + destruct (IH _ _ _ Hr) as (H1 & H2 & H3 & H4). simpl.
      split; [exact H1|]. split; [exact H2|]. split; [exact H3|].
      intros E. destruct (H4 E) as [? [pre ->]]. split; [assumption|].
      exists (CalledOnMessage (data m) :: pre). reflexivity.
    + assert (rs1 = CLOSED) as -> by (destruct rs; simpl in Hs; congruence).
      destruct (run_trace_from_closed _ _ _ _ Hr) as (-> & -> & _ & _ & F & _).
      destruct fl as [e|]; simpl; rewrite F; simpl.
      * split; [reflexivity|]. split; [reflexivity|]. split; [lia|].
        intros _. split; [reflexivity|].
        exists [LogError "WebSocket error:" e; CalledOnError e;
                Log "WebSocket connection closed"]. reflexivity.
      * split; [reflexivity|]. split; [reflexivity|]. split; [lia|].
        intros _. split; [reflexivity|].
        exists [Log "WebSocket connection closed"]. reflexivity.
    + destruct (IH _ _ _ Hr) as (H1 & H2 & H3 & H4).
      assert (Q : forall t, onClose_calls (step_actions f CallerCloses rs ++ t)
                            = onClose_calls t
                            /\ onError_calls (step_actions f CallerCloses rs ++ t)
                               = onError_calls t)
        by (intros t; destruct rs; split; reflexivity).
      destruct (Q d1) as [Q1 Q2]. rewrite Q1, Q2. simpl.
      split; [exact H1|]. split; [exact H2|]. split; [exact H3|].
      intros E. destruct (H4 E) as [? [pre ->]]. split; [assumption|].
      exists (step_actions f CallerCloses rs ++ pre).
      rewrite app_assoc. reflexivity.
Qed.

(** The close handshake is started at most once, and never again after
    the socket left the open state. *)
Lemma run_trace_handshakes (f : string) (sts : list Step) :
  forall rs rs' d,
    run_trace f sts rs = Some (rs', d) ->
    close_handshakes d <=
      match rs with
      | CONNECTING | OPEN => 1
      | CLOSING | CLOSED => 0
      end.
Proof.
  induction sts as [|st rest IH]; intros rs rs' d H.
  - simpl in H. injection H as _ <-. destruct rs; simpl; lia.
  - run_trace_step H. rewrite close_handshakes_app.
    specialize (IH _ _ _ Hr).
    destruct st as [ | m | [e|] | ]; destruct rs; simpl in Hs;
      inversion Hs; subst; simpl in *; lia.
Qed.

(** No step adds a connection attempt or an uncaught exception. *)
Lemma run_trace_quiet (f : string) (sts : list Step) :
  forall rs rs' d,
    run_trace f sts rs = Some (rs', d) ->
    connects d = [] /\ uncaught d = [].
Proof.
  induction sts as [|st rest IH]; intros rs rs' d H.
  - simpl in H. inversion H; subst. split; reflexivity.
  - run_trace_step H. destruct (IH _ _ _ Hr) as [C U].
    destruct st as [ | m | [e|] | ]; destruct rs; simpl; auto.
Qed.

(** From CONNECTING, a run that opens starts by logging and sending the
    request; a run that never opens receives nothing. *)
Lemma run_trace_request_first (f : string) (sts : list Step) :
  forall rs' d,
    run_trace f sts CONNECTING = Some (rs', d) ->
    (existsb is_Opens sts = true ->
     exists rest, d = Log "WebSocket connection established" :: Sent f :: rest)
    /\ (existsb is_Opens sts = false -> received sts = []).
Proof.
  induction sts as [|st rest IH]; intros rs' d H.
  - simpl in H. inversion H; subst. simpl. split; [discriminate | reflexivity].
  - run_trace_step H.
    destruct st as [ | m | fl | ]; simpl in Hs; try discriminate;
      inversion Hs; subst.
    + simpl. split; [|discriminate]. intros _. exists d1. reflexivity.
    + destruct (run_trace_from_closed _ _ _ _ Hr) as (_ & _ & _ & O & _ & R).
      simpl. rewrite O. split; [discriminate|]. intros _.
      destruct fl; exact R.
    + simpl. exact (IH _ _ Hr).
Qed.

Section WiredSocketRuns.

Variable JSON_stringify : ChatCompletionRequest -> string.
Variable g : GlobalThis.
Variable request : ChatCompletionRequest.

Local Abbreviation ws0 := (probed JSON_stringify g request).
Local Abbreviation frame := (JSON_stringify request).

Lemma run_closed_form (sts : list Step) :
  forall u rs t,
    run sts (set_conn (mkConn u rs t) ws0) =
    option_map
      (fun p => set_conn (mkConn u (fst p) (t ++ snd p)) ws0)
      (run_trace frame sts rs).
Proof.
  induction sts as [|st rest IH]; intros u rs t.
  - simpl. rewrite app_nil_r. reflexivity.
  - unfold run; fold run. rewrite step_wired. simpl run_trace.
    destruct (state_after st rs) as [rs1|]; simpl; [|reflexivity].
    rewrite IH.
    destruct (run_trace frame rest rs1) as [[rs2 d]|]; simpl; [|reflexivity].
    rewrite app_assoc. reflexivity.
Qed.

(** Every life of a socket made by the opener, in closed form. *)
Lemma run_probed (sts : list Step) (ws' : WebSocket) :
  run sts ws0 = Some ws' ->
  exists rs' d,
    run_trace frame sts CONNECTING = Some (rs', d)
    /\ conn ws' =
         mkConn (getWebSocketUrl g) rs' (Connect (getWebSocketUrl g) :: d).
Proof.
  intros H.
  rewrite <- (set_conn_probed JSON_stringify g request) in H.
  rewrite probed_conn, run_closed_form in H.
  destruct (run_trace frame sts CONNECTING) as [[rs' d]|]; simpl in H;
    [|discriminate].
  inversion H; subst. exists rs', d. split; reflexivity.
Qed.

Lemma run_after_early_close (sts : list Step) :
  run (CallerCloses :: sts) ws0 = run sts ws0.
Proof. reflexivity. Qed.

End WiredSocketRuns.

Lemma connects_app (a b : list Action) :
  connects (a ++ b) = connects a ++ connects b.
Proof.
  induction a as [|x a IH]; simpl; [reflexivity|].
  destruct x; simpl; rewrite IH; reflexivity.
Qed.

Lemma uncaught_app (a b : list Action) :
  uncaught (a ++ b) = uncaught a ++ uncaught b.
Proof.
  induction a as [|x a IH]; simpl; [reflexivity|].
  destruct x; simpl; rewrite IH; reflexivity.
Qed.

Lemma uncaught_snoc_other (t : list Action) (a : Action) :
  (forall e, a <> Uncaught e) -> uncaught (t ++ [a]) = uncaught t.
Proof.
  intros N. rewrite uncaught_app.
  destruct a; simpl; try apply app_nil_r.
  exfalso. exact (N e eq_refl).
Qed.

Section AnyCallbacks.

Variable JSON_stringify : ChatCompletionRequest -> string.
Variable g : GlobalThis.
Variable request : ChatCompletionRequest.
Variable onMessage : Payload -> M unit.
Variable onError : Event -> M unit.
Variable onClose : M unit.

Hypothesis onMessage_quiet : forall p, returns_quietly (onMessage p).
Hypothesis onError_quiet : forall e, returns_quietly (onError e).
Hypothesis onClose_quiet : returns_quietly onClose.

Local Abbreviation wsC :=
  (createChatWebSocket JSON_stringify g request onMessage onError onClose).

(** One step with callbacks that return quietly: the handlers stay in
    place and no uncaught exception is added. *)
Lemma step_quiet (st : Step) (c : Conn) (ws' : WebSocket) :
  step st (set_conn c wsC) = Some ws' ->
  exists c', ws' = set_conn c' wsC
             /\ uncaught (trace c') = uncaught (trace c).
Proof.
  destruct c as [u rs t].
  destruct st as [ | m | fl | ]; unfold step; simpl.
  - destruct rs; try discriminate. intros H. inversion H; subst.
    eexists. split; [reflexivity|]. simpl.
    rewrite !uncaught_app. simpl. rewrite !app_nil_r. reflexivity.
  - destruct rs; try discriminate. intros H. inversion H; subst. clear H.
    unfold run_handler. simpl.
    destruct (onMessage_quiet (data m) (mkConn u OPEN t)) as [c' [E U]].
    rewrite E. exists c'. split; [reflexivity | exact U].
  - destruct fl as [e|]; destruct rs; simpl; try discriminate; intros H;
      inversion H; subst; clear H;
      unfold run_handler, bind, console_error, console_log, emit; simpl.
    1-3: match goal with
         | |- context [onError ?e0 ?c0] =>
             destruct (onError_quiet e0 c0) as [c1 [E1 U1]]; rewrite E1; simpl;
             unfold bind, console_log, emit; simpl
         end.
    all: match goal with
         | |- context [onClose ?c0] =>
             destruct (onClose_quiet c0) as [c2 [E2 U2]]; rewrite E2;
             exists c2; (split; [reflexivity|]); rewrite U2; simpl
         end.
    1-3: rewrite uncaught_snoc_other by discriminate; rewrite U1; simpl.
    all: apply uncaught_snoc_other; discriminate.
  - unfold ws_close. destruct rs; simpl; intros H; inversion H; subst;
      (eexists; split; [reflexivity|]); simpl; try reflexivity.
    apply uncaught_snoc_other. discriminate.
Qed.

Lemma run_quiet (sts : list Step) :
  forall (c : Conn) (ws' : WebSocket),
    run sts (set_conn c wsC) = Some ws' ->
    exists c', ws' = set_conn c' wsC
               /\ uncaught (trace c') = uncaught (trace c).
Proof.
  induction sts as [|st rest IH]; intros c ws' H.
  - simpl in H. inversion H; subst. exists c. split; reflexivity.
  - unfold run in H; fold run in H.
    destruct (step st (set_conn c wsC)) as [ws1|] eqn:E; [|discriminate].
    destruct (step_quiet _ _ _ E) as [c1 [-> U1]].
    destruct (IH _ _ H) as [c2 [-> U2]].
    exists c2. split; [reflexivity|]. rewrite U2. exact U1.
Qed.

End AnyCallbacks.

(** X7: closing is idempotent: a second [closeWebSocket] on the handle
    left by a first one returns normally and changes nothing, and no
    handle is open after [closeWebSocket]. *)
Theorem close_idempotent (h : option WebSocket) :
  closeWebSocket (snd (closeWebSocket h)) = (Returned tt, snd (closeWebSocket h))
  /\ (forall s', snd (closeWebSocket h) = Some s' -> readyState (conn s') <> OPEN).
Proof.
  destruct h as [s|]; [|split; [reflexivity | discriminate]].
  unfold closeWebSocket, ws_close.
  destruct (readyState (conn s)) eqn:E; simpl; rewrite ?E; simpl;
    (split; [reflexivity|]);
    intros s' H; inversion H; subst; simpl; congruence.
Qed.

(** X8: over any life of a connection made by the opener, however often
    the caller asks to close it, the close handshake is started at most
    once. *)
Theorem at_most_one_close_handshake
    (JSON_stringify : ChatCompletionRequest -> string)
    (g : GlobalThis) (request : ChatCompletionRequest)
    (sts : list Step) (ws' : WebSocket) :
  run sts (probed JSON_stringify g request) = Some ws' ->
  close_handshakes (trace (conn ws')) <= 1.
Proof.
  intros H. destruct (run_probed _ _ _ _ _ H) as (rs' & d & Ht & ->).
  simpl. exact (run_trace_handshakes _ _ _ _ _ Ht).
Qed.

Lemma at_most_one_close_handshake_witness :
  close_handshakes
    [Connect "ws://localhost:8001/ws/chat";
     Log "WebSocket connection established";
     Sent "deepwiki";
     CloseStarted;
     Log "WebSocket connection closed";
     CalledOnClose]
  <= 1.
Proof.
  exact (at_most_one_close_handshake repo_url (server_side None)
           (mkChatCompletionRequest "deepwiki" [] None None None None None
              None None None)
           [CallerCloses; Opens; CallerCloses; CallerCloses; Closed None;
            CallerCloses]
           _ eq_refl).
Defined.

(** X9: over any life of a connection made by the opener, onClose is
    called once if the connection closed and not at all otherwise; when it
    is called the socket is CLOSED and the call is the last thing that
    happens on the connection. *)
Theorem onClose_once_and_last
    (JSON_stringify : ChatCompletionRequest -> string)
    (g : GlobalThis) (request : ChatCompletionRequest)
    (sts : list Step) (ws' : WebSocket) :
  run sts (probed JSON_stringify g request) = Some ws' ->
  onClose_calls (trace (conn ws')) = (if existsb is_Closed sts then 1 else 0)
  /\ (existsb is_Closed sts = true ->
      readyState (conn ws') = CLOSED
      /\ exists pre, trace (conn ws') = pre ++ [CalledOnClose]).
Proof.
  intros H. destruct (run_probed _ _ _ _ _ H) as (rs' & d & Ht & ->).
  destruct (run_trace_closing _ _ _ _ _ Ht) as (H1 & _ & _ & H4).
  simpl. split; [exact H1|].
  intros E. destruct (H4 E) as [-> [pre ->]]. split; [reflexivity|].
  exists (Connect (getWebSocketUrl g) :: pre). reflexivity.
Qed.

Lemma onClose_once_and_last_witness :
  onClose_calls
    [Connect "ws://localhost:8001/ws/chat";
     LogError "WebSocket error:" (mkEvent "error");
     CalledOnError (mkEvent "error");
     Log "WebSocket connection closed";
     CalledOnClose]
  = 1.
Proof.
  exact (proj1
           (onClose_once_and_last repo_url (server_side None)
              (mkChatCompletionRequest "deepwiki" [] None None None None None
                 None None None)
              [Closed (Some (mkEvent "error")); CallerCloses]
              _ eq_refl)).
Defined.

(** X10: over any life of a connection made by the opener, onError is
    called with the error event of the failure, once, if the connection
    failed, and never otherwise. *)
Theorem onError_once_with_failure
    (JSON_stringify : ChatCompletionRequest -> string)
    (g : GlobalThis) (request : ChatCompletionRequest)
    (sts : list Step) (ws' : WebSocket) :
  run sts (probed JSON_stringify g request) = Some ws' ->
  onError_calls (trace (conn ws')) = failures sts
  /\ length (onError_calls (trace (conn ws'))) <= 1.
Proof.
  intros H. destruct (run_probed _ _ _ _ _ H) as (rs' & d & Ht & ->).
  destruct (run_trace_closing _ _ _ _ _ Ht) as (_ & H2 & H3 & _).
  simpl. rewrite H2. split; [reflexivity | exact H3].
Qed.

Lemma onError_once_with_failure_witness :
  onError_calls
    [Connect "ws://localhost:8001/ws/chat";
     Log "WebSocket connection established";
     Sent "deepwiki";
     CalledOnMessage (Text "foo");
     LogError "WebSocket error:" (mkEvent "error");
     CalledOnError (mkEvent "error");
     Log "WebSocket connection closed";
     CalledOnClose]
  = [mkEvent "error"].
Proof.
  exact (proj1
           (onError_once_with_failure repo_url (server_side None)
              (mkChatCompletionRequest "deepwiki" [] None None None None None
                 None None None)
              [Opens; text_frame "foo"; Closed (Some (mkEvent "error"))]
              _ eq_refl)).
Defined.

(** X11: from any state of a socket wired by the opener, no step of its
    life makes a connection attempt: the handlers and [closeWebSocket]
    never construct a socket, so there is no reconnection after an error
    or a close. *)
Theorem never_reconnects
    (JSON_stringify : ChatCompletionRequest -> string)
    (g : GlobalThis) (request : ChatCompletionRequest)
    (c : Conn) (sts : list Step) (ws' : WebSocket) :
  run sts (set_conn c (probed JSON_stringify g request)) = Some ws' ->
  connects (trace (conn ws')) = connects (trace c).
Proof.
  destruct c as [u rs t]. intros H. rewrite run_closed_form in H.
  destruct (run_trace (JSON_stringify request) sts rs) as [[rs' d]|] eqn:Ht;
    simpl in H; [|discriminate].
  inversion H; subst. simpl.
  destruct (run_trace_quiet _ _ _ _ _ Ht) as [C _].
  rewrite connects_app, C. apply app_nil_r.
Qed.

Lemma never_reconnects_witness :
  connects
    [Connect "ws://localhost:8001/ws/chat";
     Log "WebSocket connection established";
     Sent "deepwiki";
     LogError "WebSocket error:" (mkEvent "error");
     CalledOnError (mkEvent "error");
     Log "WebSocket connection closed";
     CalledOnClose]
  = ["ws://localhost:8001/ws/chat"%string].
Proof.
  exact (never_reconnects repo_url (server_side None)
           (mkChatCompletionRequest "deepwiki" [] None None None None None
              None None None)
           (mkConn "ws://localhost:8001/ws/chat" CONNECTING
              [Connect "ws://localhost:8001/ws/chat"])
           [Opens; Closed (Some (mkEvent "error"))]
           _ eq_refl).
Defined.

(** X12: the wiring's own statements never throw.  Whatever callbacks the
    caller supplies, as long as they return normally and report no
    exception themselves, no step of a socket's life adds an uncaught
    exception: the send in the open handler always runs on an open
    socket. *)
Theorem handlers_never_throw
    (JSON_stringify : ChatCompletionRequest -> string)
    (g : GlobalThis) (request : ChatCompletionRequest)
    (onMessage : Payload -> M unit) (onError : Event -> M unit)
    (onClose : M unit)
    (c : Conn) (sts : list Step) (ws' : WebSocket) :
  (forall p, returns_quietly (onMessage p)) ->
  (forall e, returns_quietly (onError e)) ->
  returns_quietly onClose ->
  run sts
    (set_conn c
       (createChatWebSocket JSON_stringify g request onMessage onError onClose))
  = Some ws' ->
  uncaught (trace (conn ws')) = uncaught (trace c).
Proof.
  intros HM HE HC H.
  destruct (run_quiet JSON_stringify g request onMessage onError onClose
              HM HE HC sts c ws' H) as [c' [-> U]].
  exact U.
Qed.

Lemma handlers_never_throw_witness :
  uncaught
    [Connect "ws://localhost:8001/ws/chat";
     Log "WebSocket connection established";
     Sent "deepwiki";
     CalledOnMessage (Text "foo");
     CloseStarted;
     LogError "WebSocket error:" (mkEvent "error");
     CalledOnError (mkEvent "error");
     Log "WebSocket connection closed";
     CalledOnClose]
  = [].
Proof.
  refine (handlers_never_throw repo_url (server_side None)
            (mkChatCompletionRequest "deepwiki" [] None None None None None
               None None None)
            probe_onMessage probe_onError probe_onClose
            (mkConn "ws://localhost:8001/ws/chat" CONNECTING
               [Connect "ws://localhost:8001/ws/chat"])
            [Opens; text_frame "foo"; CallerCloses;
             Closed (Some (mkEvent "error"))]
            _ _ _ _ eq_refl).
  - intros p c. eexists. split; [reflexivity|]. apply uncaught_snoc_other.
    discriminate.
  - intros e c. eexists. split; [reflexivity|]. apply uncaught_snoc_other.
    discriminate.
  - intros c. eexists. split; [reflexivity|]. apply uncaught_snoc_other.
    discriminate.
Defined.

(** X13: on a connection that opens, sending the request is the first
    thing done after connecting, before any callback is called; and
    onMessage is only ever called on a connection that opened. *)
Theorem request_precedes_callbacks
    (JSON_stringify : ChatCompletionRequest -> string)
    (g : GlobalThis) (request : ChatCompletionRequest)
    (sts : list Step) (ws' : WebSocket) :
  run sts (probed JSON_stringify g request) = Some ws' ->
  (existsb is_Opens sts = true ->
   exists rest,
     trace (conn ws') =
       Connect (getWebSocketUrl g)
         :: Log "WebSocket connection established"
         :: Sent (JSON_stringify request) :: rest)
  /\ (onMessage_calls (trace (conn ws')) <> [] ->
      existsb is_Opens sts = true).
Proof.
  intros H.
  assert (R : onMessage_calls (trace (conn ws')) = received sts).
  { pose proof H as H'.
    rewrite <- (set_conn_probed JSON_stringify g request) in H'.
    rewrite probed_conn in H'.
    exact (run_onMessage JSON_stringify g request _ _ _ _ _ H'). }
  destruct (run_probed _ _ _ _ _ H) as (rs' & d & Ht & E).
  destruct (run_trace_request_first _ _ _ _ Ht) as [P Q].
  split.
  - intros O. destruct (P O) as [rest ->]. rewrite E. simpl.
    exists rest. reflexivity.
  - intros N. destruct (existsb is_Opens sts) eqn:O; [reflexivity|].
    exfalso. apply N. rewrite R. apply Q. reflexivity.
Qed.

Lemma request_precedes_callbacks_witness :
  exists rest,
    [Connect "ws://localhost:8001/ws/chat";
     Log "WebSocket connection established";
     Sent "deepwiki";
     CalledOnMessage (Text "foo");
     Log "WebSocket connection closed";
     CalledOnClose]
    = Connect "ws://localhost:8001/ws/chat"
        :: Log "WebSocket connection established"
        :: Sent "deepwiki" :: rest.
Proof.
  exact (proj1
           (request_precedes_callbacks repo_url (server_side None)
              (mkChatCompletionRequest "deepwiki" [] None None None None None
                 None None None)
              [Opens; text_frame "foo"; Closed None]
              _ eq_refl)
           eq_refl).
Defined.

(** X14: asking to close a socket that is still connecting cancels
    nothing: after any number of such calls the connection goes on as if
    they had not been made, and if it opens the request is sent. *)
Theorem early_close_does_not_cancel
    (JSON_stringify : ChatCompletionRequest -> string)
    (g : GlobalThis) (request : ChatCompletionRequest) (n : nat) :
  (forall sts,
     run (repeat CallerCloses n ++ sts) (probed JSON_stringify g request)
     = run sts (probed JSON_stringify g request))
  /\ (exists ws',
        run (repeat CallerCloses n ++ [Opens]) (probed JSON_stringify g request)
        = Some ws'
        /\ readyState (conn ws') = OPEN
        /\ sent_frames (trace (conn ws')) = [JSON_stringify request]).
Proof.
  assert (G : forall sts,
             run (repeat CallerCloses n ++ sts) (probed JSON_stringify g request)
             = run sts (probed JSON_stringify g request)).
  { intros sts. induction n as [|k IH]; [reflexivity|].
    simpl repeat. rewrite <- app_comm_cons.
    rewrite run_after_early_close. exact IH. }
  split; [exact G|].
  rewrite G. eexists. split; [reflexivity|]. split; reflexivity.
Qed.

(** X15: whatever callbacks the caller supplies, the open event calls none
    of them: it logs one line and sends the serialized request, and the
    socket is left open with exactly these actions on it. *)
Theorem open_calls_no_callback
    (JSON_stringify : ChatCompletionRequest -> string)
    (g : GlobalThis) (request : ChatCompletionRequest)
    (onMessage : Payload -> M unit) (onError : Event -> M unit)
    (onClose : M unit) :
  exists ws1,
    step Opens
      (createChatWebSocket JSON_stringify g request onMessage onError onClose)
    = Some ws1
    /\ conn ws1 =
         mkConn (getWebSocketUrl g) OPEN
           [Connect (getWebSocketUrl g);
            Log "WebSocket connection established";
            Sent (JSON_stringify request)].
Proof. eexists. split; reflexivity. Qed.

(** X16: whatever onMessage callback the caller supplies, a frame received
    on an open socket leaves the connection exactly as the callback,
    applied to the frame's payload, leaves it: the wiring adds no action of
    its own and keeps the handlers in place. *)
Theorem message_runs_callback_only
    (JSON_stringify : ChatCompletionRequest -> string)
    (g : GlobalThis) (request : ChatCompletionRequest)
    (onMessage : Payload -> M unit) (onError : Event -> M unit)
    (onClose : M unit)
    (c c' : Conn) (m : MessageEvent) :
  readyState c = OPEN ->
  onMessage (data m) c = (Returned tt, c') ->
  step (Receives m)
    (set_conn c
       (createChatWebSocket JSON_stringify g request onMessage onError onClose))
  = Some
      (set_conn c'
         (createChatWebSocket JSON_stringify g request onMessage onError onClose)).
Proof.
  intros Ho Hc. unfold step. simpl. rewrite Ho.
  unfold run_handler. simpl. rewrite Hc. reflexivity.
Qed.

Lemma message_runs_callback_only_witness :
  step (text_frame "foo")
    (set_conn (mkConn "ws://localhost:8001/ws/chat" OPEN [])
       (createChatWebSocket repo_url (server_side None)
          (mkChatCompletionRequest "deepwiki" [] None None None None None
             None None None)
          (fun p => emit (CalledOnMessage p) ;; ws_send "ack")
          probe_onError probe_onClose))
  = Some
      (set_conn
         (mkConn "ws://localhost:8001/ws/chat" OPEN
            [CalledOnMessage (Text "foo"); Sent "ack"])
         (createChatWebSocket repo_url (server_side None)
            (mkChatCompletionRequest "deepwiki" [] None None None None None
               None None None)
            (fun p => emit (CalledOnMessage p) ;; ws_send "ack")
            probe_onError probe_onClose)).
Proof.
  exact (message_runs_callback_only repo_url (server_side None)
           (mkChatCompletionRequest "deepwiki" [] None None None None None
              None None None)
           (fun p => emit (CalledOnMessage p) ;; ws_send "ack")
           probe_onError probe_onClose
           (mkConn "ws://localhost:8001/ws/chat" OPEN [])
           (mkConn "ws://localhost:8001/ws/chat" OPEN
              [CalledOnMessage (Text "foo"); Sent "ack"])
           (mkMessageEvent (Text "foo"))
           eq_refl eq_refl).
Defined.
